(** * Verification of the powerstrip AT-command driver (src/powerstrip/powerstrip.py)

    Shallow embedding of the [Powerstrip] class.  Python [str] values are
    modelled as ASCII [string]s.  The serial port is a recording transport:
    every [write] is appended to a log, and every [readline] pops the next
    raw line the device sends (an exhausted queue models a read timeout, for
    which pyserial's [readline] returns the empty byte string).  Python
    exceptions are the error branch of a small state-and-exception monad. *)

From Stdlib Require Import ZArith QArith String Ascii List Bool Lia.
From Stdlib Require Import Numbers.DecimalString Numbers.DecimalZ.
Import ListNotations.
Open Scope string_scope.

(* ------------------------------------------------------------------ *)
(** ** Python values *)

(** Python exceptions the driver can raise. *)
Inductive exn :=
| ValueError (msg : string).

(** Python [float]: an IEEE double.  Finite values are kept as exact
    rationals (rounding to the nearest double is not modelled; the sign of
    zero is not observable through the comparisons used here). *)
Inductive pyfloat :=
| Fin (q : Q)
| PInf
| NInf
| NaN.

(** IEEE comparisons, as Python's [==], [!=], [<] and [>] on floats. *)
Definition float_eq (x y : pyfloat) : bool :=
  match x, y with
  | Fin a, Fin b => Qeq_bool a b
  | PInf, PInf | NInf, NInf => true
  | _, _ => false
  end.

Definition float_ne (x y : pyfloat) : bool :=
  match x, y with
  | NaN, _ | _, NaN => true
  | _, _ => negb (float_eq x y)
  end.

Definition float_lt (x y : pyfloat) : bool :=
  match x, y with
  | Fin a, Fin b => negb (Qle_bool b a)
  | NInf, Fin _ | NInf, PInf | Fin _, PInf => true
  | _, _ => false
  end.

Definition float_gt (x y : pyfloat) : bool := float_lt y x.

(** Python's [str.isspace] on the ASCII range: \t \n \v \f \r, the
    separators \x1c-\x1f, and the space. *)
Definition is_space (c : ascii) : bool :=
  let n := nat_of_ascii c in
  ((9 <=? n) && (n <=? 13))%nat || ((28 <=? n) && (n <=? 32))%nat.

Fixpoint lstrip (s : string) : string :=
  match s with
  | EmptyString => EmptyString
  | String c r => if is_space c then lstrip r else s
  end.

Definition rev_string (s : string) : string :=
  string_of_list_ascii (rev (list_ascii_of_string s)).

(** [str.strip()] *)
Definition strip (s : string) : string :=
  rev_string (lstrip (rev_string (lstrip s))).

(** [str(x)] for a Python [int]. *)
Definition py_str_int (x : Z) : string :=
  NilEmpty.string_of_int (Z.to_int x).

(** CPython's default [sys.get_int_max_str_digits()]: converting an [int]
    of more than this many decimal digits to [str] raises [ValueError]. *)
Definition int_max_str_digits : Z := 4300.

Definition int_max_str_msg : string :=
  "Exceeds the limit (4300 digits) for integer string conversion".

(** [str(x)] (or [f"{x}"]) for a Python [int], with the digit limit. *)
Definition py_str_int_checked (x : Z) : option string :=
  if (Z.abs x <? 10 ^ int_max_str_digits)%Z then Some (py_str_int x) else None.

(** [int(b)] for a Python [bool], as used in [f"...{int(state)}"]. *)
Definition py_str_bool (b : bool) : string := if b then "1" else "0".

(* ------------------------------------------------------------------ *)
(** ** The serial transport and the exception monad *)

Record serial := mkSerial {
  written : list string;   (** lines written so far, oldest first *)
  pending : list string    (** raw lines the device will answer *)
}.

Definition M (A : Type) : Type := serial -> (exn + A) * serial.

Definition ret {A} (a : A) : M A := fun s => (inr a, s).
Definition raise {A} (e : exn) : M A := fun s => (inl e, s).
Definition bind {A B} (m : M A) (k : A -> M B) : M B :=
  fun s => match m s with
           | (inl e, s') => (inl e, s')
           | (inr a, s') => k a s'
           end.

Notation "x <- m ;; k" := (bind m (fun x => k))
  (at level 61, m at next level, right associativity).

(** Lift a fallible pure computation (an [option]) into [M]. *)
Definition lift_opt {A} (msg : string) (o : option A) : M A :=
  match o with Some a => ret a | None => raise (ValueError msg) end.

(** [self.serial.write(bytes)] *)
Definition serial_write (line : string) : M unit :=
  fun s => (inr tt, mkSerial (written s ++ [line]) (pending s)).

(** [self.serial.readline()]; an empty queue is a timeout, giving [b""]. *)
Definition serial_readline : M string :=
  fun s => match pending s with
           | [] => (inr "", s)
           | l :: rest => (inr l, mkSerial (written s) rest)
           end.

Definition newline : string := String (ascii_of_nat 10) EmptyString.

(** [Powerstrip._send_command] *)
Definition _send_command (cmd : string) : M string :=
  _ <- serial_write (cmd ++ newline) ;;
  line <- serial_readline ;;
  ret (strip line).

(** [response == 'OK'] *)
Definition is_OK (r : string) : bool := String.eqb r "OK".

(* ------------------------------------------------------------------ *)
(** ** Simple commands *)

Definition ping : M bool :=
  r <- _send_command "AT" ;; ret (is_OK r).

Definition set_echo (state : bool) : M bool :=
  r <- _send_command ("ATE=" ++ py_str_bool state) ;; ret (is_OK r).

Definition get_echo : M bool :=
  r <- _send_command "ATE?" ;; ret (String.eqb r "1").

Definition reset : M bool :=
  r <- _send_command "ATR" ;; ret (is_OK r).

Definition get_firmware_version : M string :=
  _send_command "ATVER?".

Definition set_all_ac (state : bool) : M bool :=
  r <- _send_command ("ATAC=" ++ py_str_bool state) ;; ret (is_OK r).

(** The f-string formats [x] before anything is written, so an index over
    the digit limit raises [ValueError] without any I/O. *)
Definition set_ac (x : Z) (state : bool) : M bool :=
  sx <- lift_opt int_max_str_msg (py_str_int_checked x) ;;
  r <- _send_command ("ATAC" ++ sx ++ "=" ++ py_str_bool state) ;;
  ret (is_OK r).

Definition set_all_3v (state : bool) : M bool :=
  r <- _send_command ("AT3V=" ++ py_str_bool state) ;; ret (is_OK r).

Definition set_3v (x : Z) (state : bool) : M bool :=
  sx <- lift_opt int_max_str_msg (py_str_int_checked x) ;;
  r <- _send_command ("AT3V" ++ sx ++ "=" ++ py_str_bool state) ;;
  ret (is_OK r).

Definition set_all_5v (state : bool) : M bool :=
  r <- _send_command ("AT5V=" ++ py_str_bool state) ;; ret (is_OK r).

(* ------------------------------------------------------------------ *)
(** ** [int(s, 16)], [bin] and the bulk rail getters *)

Definition is_digit (c : ascii) : bool :=
  let n := nat_of_ascii c in ((48 <=? n) && (n <=? 57))%nat.

(** Value of a digit in base 16 ([0-9], [a-f], [A-F]). *)
Definition hex_val (c : ascii) : option Z :=
  let n := nat_of_ascii c in
  if is_digit c then Some (Z.of_nat n - 48)%Z
  else if ((97 <=? n) && (n <=? 102))%nat then Some (Z.of_nat n - 87)%Z
  else if ((65 <=? n) && (n <=? 70))%nat then Some (Z.of_nat n - 55)%Z
  else None.

Definition underscore : ascii := "_"%char.

(** Digits after the first one: a single ['_'] may separate two digits. *)
Fixpoint int_digits_rest (digval : ascii -> option Z) (base acc : Z)
    (l : list ascii) : option Z :=
  match l with
  | [] => Some acc
  | c :: r =>
      if Ascii.eqb c underscore then
        match r with
        | d :: r' => match digval d with
                     | Some k => int_digits_rest digval base (acc * base + k) r'
                     | None => None
                     end
        | [] => None
        end
      else match digval c with
           | Some k => int_digits_rest digval base (acc * base + k) r
           | None => None
           end
  end%Z.

(** Optional sign; [true] when negative. *)
Definition take_sign (l : list ascii) : bool * list ascii :=
  match l with
  | c :: r => if Ascii.eqb c "-"%char then (true, r)
              else if Ascii.eqb c "+"%char then (false, r) else (false, l)
  | [] => (false, l)
  end.

(** CPython's base-16 prefix: ["0x"] or ["0X"], then one optional ['_']. *)
Definition skip_hex_prefix (l : list ascii) : list ascii :=
  match l with
  | z :: x :: r =>
      if Ascii.eqb z "0"%char && (Ascii.eqb x "x"%char || Ascii.eqb x "X"%char)
      then match r with
           | u :: r' => if Ascii.eqb u underscore then r' else r
           | [] => r
           end
      else l
  | _ => l
  end.

(** [int(s, 16)] on a [str]: surrounding whitespace, a sign, the optional
    ["0x"] prefix, then hexadecimal digits with single underscores between
    them; anything else raises [ValueError]. *)
Definition py_int16 (s : string) : option Z :=
  let (neg, l) := take_sign (list_ascii_of_string (strip s)) in
  match skip_hex_prefix l with
  | c :: r =>
      match hex_val c with
      | Some k => match int_digits_rest hex_val 16 k r with
                  | Some v => Some (if neg then Z.opp v else v)
                  | None => None
                  end
      | None => None
      end
  | [] => None
  end.

(** Binary digits of a positive number, most significant first. *)
Fixpoint pos_bin (p : positive) : list ascii :=
  match p with
  | xH => ["1"%char]
  | xO q => pos_bin q ++ ["0"%char]
  | xI q => pos_bin q ++ ["1"%char]
  end.

(** [bin(v)] *)
Definition py_bin (v : Z) : list ascii :=
  match v with
  | Z0 => ["0"%char; "b"%char; "0"%char]
  | Zpos p => "0"%char :: "b"%char :: pos_bin p
  | Zneg p => "-"%char :: "0"%char :: "b"%char :: pos_bin p
  end.

(** [int(bit)] on a one-character [str]. *)
Definition py_int_char (c : ascii) : option Z :=
  if is_digit c then Some (Z.of_nat (nat_of_ascii c) - 48)%Z else None.

Fixpoint map_opt {A B} (f : A -> option B) (l : list A) : option (list B) :=
  match l with
  | [] => Some []
  | a :: r => match f a, map_opt f r with
              | Some b, Some bs => Some (b :: bs)
              | _, _ => None
              end
  end.

(** [[bool(int(bit)) for bit in bin(int(response, 16))[2:]]] *)
Definition bits_of_response (response : string) : M (list bool) :=
  v <- lift_opt "invalid literal for int() with base 16" (py_int16 response) ;;
  lift_opt "invalid literal for int() with base 10"
    (map_opt (fun bit => option_map (fun k => negb (Z.eqb k 0)) (py_int_char bit))
             (skipn 2 (py_bin v))).

Definition get_all_ac : M (list bool) :=
  response <- _send_command "ATAC?" ;; bits_of_response response.

Definition get_all_3v : M (list bool) :=
  response <- _send_command "AT3V?" ;; bits_of_response response.

Definition get_all_5v : M (list bool) :=
  response <- _send_command "AT5V?" ;; bits_of_response response.

(* ------------------------------------------------------------------ *)
(** ** Polarity of the 5V output *)

Inductive Polarity := POSITIVE | NEGATIVE | OFF.

(** [Polarity.value] *)
Definition value (p : Polarity) : string :=
  match p with POSITIVE => "VPOS" | NEGATIVE => "VNEG" | OFF => "OFF" end.

(** [Polarity(v)]: lookup of a member by value; [ValueError] otherwise. *)
Definition Polarity_of_value (v : string) : option Polarity :=
  if String.eqb v "VPOS" then Some POSITIVE
  else if String.eqb v "VNEG" then Some NEGATIVE
  else if String.eqb v "OFF" then Some OFF
  else None.

Definition set_5v_polarity (polarity : Polarity) : M bool :=
  r <- _send_command ("ATVPOL=" ++ value polarity) ;; ret (is_OK r).

Definition get_5v_polarity : M Polarity :=
  response <- _send_command "ATVPOL?" ;;
  lift_opt "is not a valid Polarity" (Polarity_of_value response).

(* ------------------------------------------------------------------ *)
(** ** [float(s)] and the variable output *)

(** A decimal digit part: [digit (["_"] digit)*].  Returns the value, the
    number of digits and the rest; [None] when there is no digit first or
    when an underscore is not followed by a digit (CPython rejects every
    underscore that is not between two digits). *)
Fixpoint digitpart_rest (acc : Z) (n : nat) (l : list ascii)
    : option (Z * nat * list ascii) :=
  match l with
  | [] => Some (acc, n, [])
  | c :: r =>
      if is_digit c then
        digitpart_rest (acc * 10 + (Z.of_nat (nat_of_ascii c) - 48))%Z (S n) r
      else if Ascii.eqb c underscore then
        match r with
        | d :: r' =>
            if is_digit d then
              digitpart_rest (acc * 10 + (Z.of_nat (nat_of_ascii d) - 48))%Z (S n) r'
            else None
        | [] => None
        end
      else Some (acc, n, l)
  end.

Definition digitpart (l : list ascii) : option (Z * nat * list ascii) :=
  match l with
  | c :: r => if is_digit c
              then digitpart_rest (Z.of_nat (nat_of_ascii c) - 48)%Z 1 r
              else None
  | [] => None
  end.

(** [number ::= [digitpart] "." digitpart | digitpart ["."]]: the mantissa
    as an integer, the number of fraction digits, and the rest. *)
Definition number (l : list ascii) : option (Z * nat * list ascii) :=
  match digitpart l with
  | Some (ip, _, r) =>
      match r with
      | c :: r' =>
          if Ascii.eqb c "."%char then
            match digitpart r' with
            | Some (fp, nf, r'') => Some (ip * 10 ^ Z.of_nat nf + fp, nf, r'')%Z
            | None => Some (ip, O, r')
            end
          else Some (ip, O, r)
      | [] => Some (ip, O, r)
      end
  | None =>
      match l with
      | c :: r' =>
          if Ascii.eqb c "."%char then digitpart r' else None
      | [] => None
      end
  end.

(** [exponent ::= ("e" | "E") [sign] digitpart], then the end of input. *)
Definition exponent (l : list ascii) : option Z :=
  match l with
  | [] => Some 0%Z
  | c :: r =>
      if Ascii.eqb c "e"%char || Ascii.eqb c "E"%char then
        let (neg, r') := take_sign r in
        match digitpart r' with
        | Some (e, _, []) => Some (if neg then Z.opp e else e)
        | _ => None
        end
      else None
  end.

(** The exact value [m * 10^k]. *)
Definition scale (m k : Z) : Q :=
  if (0 <=? k)%Z then inject_Z (m * 10 ^ k) else Qmake m (Z.to_pos (10 ^ (- k))).

Definition lower (c : ascii) : ascii :=
  let n := nat_of_ascii c in
  if ((65 <=? n) && (n <=? 90))%nat then ascii_of_nat (n + 32) else c.

Definition neg_float (neg : bool) (f : pyfloat) : pyfloat :=
  if neg then match f with
              | Fin q => Fin (- q)
              | PInf => NInf
              | NInf => PInf
              | NaN => NaN
              end
  else f.

(** The whitespace [float()] skips around its argument: \t \n \v \f \r
    and the space (unlike [str.strip], not the separators \x1c-\x1f). *)
Definition is_float_space (c : ascii) : bool :=
  let n := nat_of_ascii c in ((9 <=? n) && (n <=? 13))%nat || (n =? 32)%nat.

Fixpoint float_lstrip (s : string) : string :=
  match s with
  | EmptyString => EmptyString
  | String c r => if is_float_space c then float_lstrip r else s
  end.

Definition float_strip (s : string) : string :=
  rev_string (float_lstrip (rev_string (float_lstrip s))).

(** [float(s)] on a [str]: surrounding whitespace, a sign, then
    ["inf"], ["infinity"] or ["nan"] in any case, or a decimal number with
    an optional exponent; anything else raises [ValueError]. *)
Definition py_float (s : string) : option pyfloat :=
  let (neg, l) := take_sign (list_ascii_of_string (float_strip s)) in
  let low := string_of_list_ascii (map lower l) in
  if String.eqb low "inf" || String.eqb low "infinity" then Some (neg_float neg PInf)
  else if String.eqb low "nan" then Some NaN
  else match number l with
       | Some (m, nf, r) =>
           match exponent r with
           | Some e => Some (neg_float neg (Fin (scale m (e - Z.of_nat nf))))
           | None => None
           end
       | None => None
       end.

(** [response.startswith('V')] *)
Definition starts_with_V (r : string) : bool :=
  match r with String c _ => Ascii.eqb c "V"%char | EmptyString => false end.

(** [response[1:]] *)
Definition drop1 (r : string) : string :=
  match r with String _ t => t | EmptyString => EmptyString end.

(** The second [get_variable] of the class, which overrides the first. *)
Definition get_variable : M pyfloat :=
  response <- _send_command "ATVAR?" ;;
  if starts_with_V response
  then lift_opt "could not convert string to float" (py_float (drop1 response))
  else ret (Fin 0).

Section VariableOutput.

(** [str(n)] of a float, i.e. Python's [repr]; the codec only copies it. *)
Variable float_repr : pyfloat -> string.

(** The second [set_variable] of the class, which overrides the first. *)
Definition set_variable (n : pyfloat) : M bool :=
  if float_ne n (Fin 0) && (float_lt n (Fin 2) || float_gt n (Fin 5))
  then raise (ValueError "n must be 0.0 or between 2.0 and 5.0")
  else r <- _send_command ("ATVAR=" ++ float_repr n) ;; ret (is_OK r).

End VariableOutput.

(* ------------------------------------------------------------------ *)
(** ** Observations used by the statements *)

(** The trimmed reply the next [_send_command] returns. *)
Definition reply_of (st : serial) : string := strip (hd "" (pending st)).

(** The transport after one more [_send_command cmd]. *)
Definition after_send (cmd : string) (st : serial) : serial :=
  mkSerial (written st ++ [cmd ++ newline]) (tl (pending st)).

(** Reading a list of booleans as a binary number, first element most
    significant. *)
Definition bits_to_Z (bits : list bool) : Z :=
  fold_left (fun acc (b : bool) => 2 * acc + (if b then 1 else 0))%Z bits 0%Z.

Definition bit_of_char (bit : ascii) : option bool :=
  option_map (fun k => negb (Z.eqb k 0)) (py_int_char bit).

(** The legal domain of the variable output: [{0.0} ∪ [2.0, 5.0]]. *)
Definition in_domain (n : pyfloat) : bool :=
  match n with
  | Fin q => Qeq_bool q 0 || (Qle_bool 2 q && Qle_bool q 5)
  | _ => false
  end.

(* ------------------------------------------------------------------ *)
(** ** Sanity checks on concrete inputs *)

Example strip_ex : strip (String (ascii_of_nat 32) ("OK" ++ String (ascii_of_nat 13) newline)) = "OK".
Proof. reflexivity. Qed.
Example set_ac_ex : fst (set_ac (-1) true (mkSerial [] [])) = inr false /\
  written (snd (set_ac (-12) true (mkSerial [] []))) = ["ATAC-12=1" ++ newline] /\
  set_ac (10 ^ 4300) true (mkSerial [] ["OK"]) =
    (inl (ValueError int_max_str_msg), mkSerial [] ["OK"]) /\
  fst (set_ac (10 ^ 4300 - 1) true (mkSerial [] ["OK"])) = inr true.
Proof. vm_compute. repeat split. Qed.
Example get_all_ac_A : fst (get_all_ac (mkSerial [] ["A" ++ newline])) = inr [true; false; true; false].
Proof. reflexivity. Qed.
Example get_all_ac_0 : fst (get_all_ac (mkSerial [] ["0"])) = inr [false]
  /\ fst (get_all_ac (mkSerial [] ["0x_a_B"])) = inr [true;false;true;false;true;false;true;true]
  /\ fst (get_all_ac (mkSerial [] ["-1"])) = inl (ValueError "invalid literal for int() with base 10")
  /\ py_int16 "0x" = None /\ py_int16 "_1" = None /\ py_int16 "1__2" = None /\ py_int16 "12_" = None.
Proof. repeat split; reflexivity. Qed.
Example py_float_ex : py_float "3.30" = Some (Fin (330 # 100)) /\ py_float " -1_0.5e-1 " = Some (Fin (-105 # 100))
  /\ py_float "" = None /\ py_float "abc" = None /\ py_float "nAn" = Some NaN /\ py_float "1e" = None
  /\ py_float ".5" = Some (Fin (5 # 10)) /\ py_float "5." = Some (Fin 5) /\ py_float "." = None
  /\ py_float "1_.5" = None /\ py_float "-Infinity" = Some NInf
  /\ py_float (String (ascii_of_nat 28) "3.3") = None
  /\ py_float (String (ascii_of_nat 11) "3.3") = Some (Fin (33 # 10)).
Proof. repeat split; reflexivity. Qed.

(* ------------------------------------------------------------------ *)
(** ** One request/response cycle *)

Lemma send_command_eq (cmd : string) (st : serial) :
  _send_command cmd st = (inr (reply_of st), after_send cmd st).
Proof. destruct st as [w [|l rest]]; reflexivity. Qed.

Lemma bind_send_eq {A} (cmd : string) (k : string -> M A) (st : serial) :
  bind (_send_command cmd) k st = k (reply_of st) (after_send cmd st).
Proof. unfold bind. rewrite send_command_eq. reflexivity. Qed.

Lemma is_OK_iff (r : string) : is_OK r = true <-> r = "OK".
Proof. apply String.eqb_eq. Qed.

Lemma bind_lift_opt {A B} (msg : string) (o : option A) (k : A -> M B) (st : serial) :
  bind (lift_opt msg o) k st =
  match o with Some a => k a st | None => (inl (ValueError msg), st) end.
Proof. destruct o; reflexivity. Qed.

Lemma py_str_int_checked_small (x : Z) :
  (Z.abs x < 10 ^ int_max_str_digits)%Z -> py_str_int_checked x = Some (py_str_int x).
Proof. intros H. unfold py_str_int_checked. rewrite (proj2 (Z.ltb_lt _ _) H). reflexivity. Qed.

Lemma py_str_int_checked_large (x : Z) :
  (10 ^ int_max_str_digits <= Z.abs x)%Z -> py_str_int_checked x = None.
Proof. intros H. unfold py_str_int_checked. rewrite (proj2 (Z.ltb_ge _ _) H). reflexivity. Qed.

Lemma set_ac_eq (x : Z) (b : bool) (st : serial) :
  set_ac x b st =
  match py_str_int_checked x with
  | Some sx => (inr (is_OK (reply_of st)), after_send ("ATAC" ++ sx ++ "=" ++ py_str_bool b) st)
  | None => (inl (ValueError int_max_str_msg), st)
  end.
Proof.
  unfold set_ac. rewrite bind_lift_opt.
  destruct (py_str_int_checked x); [rewrite bind_send_eq|]; reflexivity.
Qed.

Lemma set_3v_eq (x : Z) (b : bool) (st : serial) :
  set_3v x b st =
  match py_str_int_checked x with
  | Some sx => (inr (is_OK (reply_of st)), after_send ("AT3V" ++ sx ++ "=" ++ py_str_bool b) st)
  | None => (inl (ValueError int_max_str_msg), st)
  end.
Proof.
  unfold set_3v. rewrite bind_lift_opt.
  destruct (py_str_int_checked x); [rewrite bind_send_eq|]; reflexivity.
Qed.

Ltac run_send :=
  repeat match goal with
         | |- context [bind (_send_command ?c) ?k ?s] => rewrite (bind_send_eq c k s)
         end; cbn [fst snd ret].

(** C7: [ping] and every operation that expects [OK] (set_echo, reset,
    set_all_ac, set_all_3v, set_all_5v, set_5v_polarity; set_ac, set_3v and
    set_variable once their argument is accepted) answer [true] exactly when
    the whole trimmed reply is the string ["OK"]; ["ok"] and [""] give
    [false]. *)
Theorem ok_replies_compared_exactly :
  (forall st, fst (ping st) = inr (is_OK (reply_of st))) /\
  (forall b st, fst (set_echo b st) = inr (is_OK (reply_of st))) /\
  (forall st, fst (reset st) = inr (is_OK (reply_of st))) /\
  (forall b st, fst (set_all_ac b st) = inr (is_OK (reply_of st))) /\
  (forall x b st,
      (exists msg, fst (set_ac x b st) = inl (ValueError msg)) \/
      fst (set_ac x b st) = inr (is_OK (reply_of st))) /\
  (forall b st, fst (set_all_3v b st) = inr (is_OK (reply_of st))) /\
  (forall x b st,
      (exists msg, fst (set_3v x b st) = inl (ValueError msg)) \/
      fst (set_3v x b st) = inr (is_OK (reply_of st))) /\
  (forall b st, fst (set_all_5v b st) = inr (is_OK (reply_of st))) /\
  (forall p st, fst (set_5v_polarity p st) = inr (is_OK (reply_of st))) /\
  (forall float_repr n st,
      (exists msg, fst (set_variable float_repr n st) = inl (ValueError msg)) \/
      fst (set_variable float_repr n st) = inr (is_OK (reply_of st))) /\
  (forall r, is_OK r = true <-> r = "OK") /\
  fst (ping (mkSerial [] ["OK"])) = inr true /\
  fst (ping (mkSerial [] ["ok"])) = inr false /\
  fst (ping (mkSerial [] [""])) = inr false /\
  fst (ping (mkSerial [] ["OKAY"])) = inr false /\
  fst (ping (mkSerial [] ["Ok"])) = inr false.
Proof.
  repeat split; intros;
    try (rewrite ?set_ac_eq, ?set_3v_eq; destruct (py_str_int_checked _);
         [right; reflexivity | left; eexists; reflexivity]);
    try (unfold ping, set_echo, reset, set_all_ac,
    set_all_3v, set_all_5v, set_5v_polarity; run_send; reflexivity);
    try reflexivity; try (apply is_OK_iff; assumption).
  unfold set_variable.
  destruct (_ && _).
  - left. eexists. reflexivity.
  - right. run_send. reflexivity.
Qed.

(** C8: [set_ac(3, True)] writes exactly the line ["ATAC3=1"] and returns
    [true] if and only if the trimmed reply is exactly ["OK"]. *)
Theorem set_ac_3_true_command :
  forall st,
    snd (set_ac 3 true st) = after_send "ATAC3=1" st /\
    written (snd (set_ac 3 true st)) = (written st ++ [("ATAC3=1" ++ newline)%string])%list /\
    exists b, fst (set_ac 3 true st) = inr b /\ (b = true <-> reply_of st = "OK").
Proof.
  intros st. rewrite set_ac_eq.
  rewrite (py_str_int_checked_small 3) by (apply Z.ltb_lt; vm_compute; reflexivity).
  split; [reflexivity | split; [reflexivity |]].
  exists (is_OK (reply_of st)). split; [reflexivity | apply is_OK_iff].
Qed.

(** C3: [value] is injective; [set_5v_polarity p] sends ["ATVPOL=" ++ value p]
    and [get_5v_polarity] on the reply [value p] returns [p]; every other
    trimmed reply makes [get_5v_polarity] raise [ValueError] (no default). *)
Theorem polarity_token_bijection :
  (forall p q, value p = value q -> p = q) /\
  (forall p st,
      written (snd (set_5v_polarity p st)) = (written st ++ [("ATVPOL=" ++ value p ++ newline)%string])%list) /\
  (forall p w rest, fst (get_5v_polarity (mkSerial w (value p :: rest))) = inr p) /\
  (forall st, reply_of st <> "VPOS" -> reply_of st <> "VNEG" -> reply_of st <> "OFF" ->
      exists msg, fst (get_5v_polarity st) = inl (ValueError msg)).
Proof.
  split; [|split; [|split]].
  - intros [] []; cbn; congruence.
  - intros p st. unfold set_5v_polarity. run_send. reflexivity.
  - intros [] w rest; reflexivity.
  - intros st H1 H2 H3. unfold get_5v_polarity. run_send.
    unfold Polarity_of_value.
    destruct (String.eqb_spec (reply_of st) "VPOS"); [contradiction|].
    destruct (String.eqb_spec (reply_of st) "VNEG"); [contradiction|].
    destruct (String.eqb_spec (reply_of st) "OFF"); [contradiction|].
    eexists. reflexivity.
Qed.

(* ------------------------------------------------------------------ *)
(** ** Bitmask decoding *)

Open Scope list_scope.

Lemma map_opt_app {A B} (f : A -> option B) (l1 l2 : list A) :
  map_opt f (l1 ++ l2) =
  match map_opt f l1, map_opt f l2 with
  | Some a, Some b => Some (a ++ b)
  | _, _ => None
  end.
Proof.
  induction l1 as [|x l1 IH]; cbn.
  - destruct (map_opt f l2); reflexivity.
  - rewrite IH. destruct (f x), (map_opt f l1), (map_opt f l2); reflexivity.
Qed.

Lemma bits_to_Z_snoc (bits : list bool) (b : bool) :
  bits_to_Z (bits ++ [b]) = (2 * bits_to_Z bits + (if b then 1 else 0))%Z.
Proof. unfold bits_to_Z. rewrite fold_left_app. reflexivity. Qed.

Lemma pos_bin_decodes (p : positive) :
  exists bits, map_opt bit_of_char (pos_bin p) = Some bits /\
    bits_to_Z bits = Zpos p /\
    Z.of_nat (length bits) = (Z.log2 (Zpos p) + 1)%Z.
Proof.
  induction p as [q IH | q IH |]; cbn [pos_bin].
  - destruct IH as (bits & Hm & Hv & Hl).
    exists (bits ++ [true]). rewrite map_opt_app, Hm.
    split; [reflexivity|]. rewrite bits_to_Z_snoc, Hv, length_app. cbn [length].
    rewrite Pos2Z.inj_xI, Z.log2_succ_double by lia. split; lia.
  - destruct IH as (bits & Hm & Hv & Hl).
    exists (bits ++ [false]). rewrite map_opt_app, Hm.
    split; [reflexivity|]. rewrite bits_to_Z_snoc, Hv, length_app. cbn [length].
    replace (Z.pos q~0) with (2 * Z.pos q)%Z by reflexivity.
    rewrite Z.log2_double by lia. split; lia.
  - exists [true]. repeat split.
Qed.

Lemma bits_of_response_nonneg (response : string) (v : Z) :
  py_int16 response = Some v -> (0 <= v)%Z ->
  exists bits, (forall st, bits_of_response response st = (inr bits, st)) /\
    bits_to_Z bits = v /\
    Z.of_nat (length bits) = (if Z.eqb v 0 then 1 else Z.log2 v + 1)%Z /\
    (v = 0%Z -> bits = [false]).
Proof.
  intros Hv Hpos. unfold bits_of_response, bind, lift_opt. rewrite Hv.
  destruct v as [|p|p]; [| | lia].
  - exists [false]. repeat split.
  - destruct (pos_bin_decodes p) as (bits & Hm & Hb & Hl).
    exists bits. split; [intros st; cbn [ret py_bin skipn]|].
    replace (map_opt _ (pos_bin p)) with (map_opt bit_of_char (pos_bin p)) by reflexivity.
    + rewrite Hm. reflexivity.
    + repeat split; assumption || discriminate.
Qed.

Lemma bits_of_response_invalid (response : string) :
  py_int16 response = None ->
  exists msg, forall st, bits_of_response response st = (inl (ValueError msg), st).
Proof.
  intros Hv. unfold bits_of_response, bind, lift_opt. rewrite Hv.
  eexists. intros st. reflexivity.
Qed.

Lemma get_all_eq :
  forall st,
    get_all_ac st = bits_of_response (reply_of st) (after_send "ATAC?" st) /\
    get_all_3v st = bits_of_response (reply_of st) (after_send "AT3V?" st) /\
    get_all_5v st = bits_of_response (reply_of st) (after_send "AT5V?" st).
Proof.
  intros st. unfold get_all_ac, get_all_3v, get_all_5v.
  rewrite !bind_send_eq. repeat split.
Qed.

(** C1: for a reply that [int(reply, 16)] reads as a value [v >= 0], each
    bulk getter returns a list of booleans, most significant bit first,
    whose binary reading is [v], of length [floor(log2 v) + 1] when [v > 0]
    and equal to [[false]] when [v = 0]; the reply ["A"] gives
    [[true; false; true; false]]. *)
Theorem bulk_getters_decode_bitmask :
  (forall st v, py_int16 (reply_of st) = Some v -> (0 <= v)%Z ->
     forall g, In g [get_all_ac; get_all_3v; get_all_5v] ->
     exists bits, fst (g st) = inr bits /\
       bits_to_Z bits = v /\
       Z.of_nat (length bits) = (if Z.eqb v 0 then 1 else Z.log2 v + 1)%Z /\
       (v = 0%Z -> bits = [false])) /\
  fst (get_all_ac (mkSerial [] ["A"])) = inr [true; false; true; false].
Proof.
  split; [|reflexivity].
  intros st v Hv Hpos g Hg.
  destruct (get_all_eq st) as (Hac & H3 & H5).
  destruct Hg as [Hg | [Hg | [Hg | []]]]; subst g;
    first [rewrite Hac | rewrite H3 | rewrite H5];
    destruct (bits_of_response_nonneg (reply_of st) v Hv Hpos)
      as (bits & Hr & P); exists bits; rewrite Hr; exact (conj eq_refl P).
Qed.

Lemma bulk_getters_decode_bitmask_witness :
  py_int16 (reply_of (mkSerial [] ["1F"])) = Some 31%Z /\
  exists bits, fst (get_all_3v (mkSerial [] ["1F"])) = inr bits /\
    bits_to_Z bits = 31%Z /\
    Z.of_nat (length bits) = (if Z.eqb 31 0 then 1 else Z.log2 31 + 1)%Z /\
    (31%Z = 0%Z -> bits = [false]).
Proof.
  split; [reflexivity|].
  apply (proj1 bulk_getters_decode_bitmask (mkSerial [] ["1F"]) 31%Z).
  - reflexivity.
  - lia.
  - right. left. reflexivity.
Defined.

(** C10: when [int(reply, 16)] rejects the trimmed reply, each bulk getter
    raises [ValueError]; it returns no list and no default.  ["ERROR"],
    ["OK"] and [""] are such replies. *)
Theorem bulk_getters_strict :
  (forall st, py_int16 (reply_of st) = None ->
     forall g, In g [get_all_ac; get_all_3v; get_all_5v] ->
     exists msg, fst (g st) = inl (ValueError msg)) /\
  py_int16 "ERROR" = None /\ py_int16 "OK" = None /\ py_int16 "" = None.
Proof.
  split; [|repeat split].
  intros st Hv g Hg.
  destruct (get_all_eq st) as (Hac & H3 & H5).
  destruct Hg as [Hg | [Hg | [Hg | []]]]; subst g;
    first [rewrite Hac | rewrite H3 | rewrite H5];
    destruct (bits_of_response_invalid (reply_of st) Hv)
      as (msg & Hr); exists msg; rewrite Hr; reflexivity.
Qed.

Lemma bulk_getters_strict_witness :
  py_int16 (reply_of (mkSerial [] ["ERROR"])) = None /\
  exists msg, fst (get_all_5v (mkSerial [] ["ERROR"])) = inl (ValueError msg).
Proof.
  split; [reflexivity|].
  apply (proj1 bulk_getters_strict (mkSerial [] ["ERROR"])).
  - reflexivity.
  - right. right. left. reflexivity.
Defined.

(* ------------------------------------------------------------------ *)
(** ** Variable output, rail indices and the 5V bulk setter *)

Open Scope string_scope.

Lemma get_variable_eq (st : serial) :
  get_variable st =
  (if starts_with_V (reply_of st)
   then lift_opt "could not convert string to float" (py_float (drop1 (reply_of st)))
   else ret (Fin 0)) (after_send "ATVAR?" st).
Proof. unfold get_variable. apply bind_send_eq. Qed.

(** Outside the domain the guard of [set_variable] fires for every float
    but NaN, for which all three comparisons are false. *)
Lemma set_variable_domain (float_repr : pyfloat -> string) (n : pyfloat) (st : serial) :
  (in_domain n = true ->
     set_variable float_repr n st =
     (inr (is_OK (reply_of st)), after_send ("ATVAR=" ++ float_repr n) st)) /\
  (in_domain n = false -> n <> NaN ->
     set_variable float_repr n st =
     (inl (ValueError "n must be 0.0 or between 2.0 and 5.0"), st)).
Proof.
  unfold set_variable, in_domain, float_gt.
  split; intros Hd.
  - destruct n as [q| | |]; try discriminate.
    cbn [float_ne float_eq float_lt].
    destruct (Qeq_bool q 0), (Qle_bool 2 q), (Qle_bool q 5); try discriminate;
      cbn [negb andb orb]; apply bind_send_eq.
  - intros Hn. destruct n as [q| | |]; [| reflexivity | reflexivity | congruence].
    cbn [float_ne float_eq float_lt].
    destruct (Qeq_bool q 0), (Qle_bool 2 q), (Qle_bool q 5); try discriminate;
      reflexivity.
Qed.

(** C2 (failing input): NaN is outside [{0.0} ∪ [2.0, 5.0]], yet the guard
    [n != 0.0 and (n < 2.0 or n > 5.0)] is false for it, so [set_variable]
    raises nothing and writes ["ATVAR=" ++ str(nan)] to the transport. *)
Theorem set_variable_nan_reaches_transport :
  forall float_repr st,
    in_domain NaN = false /\
    set_variable float_repr NaN st =
    (inr (is_OK (reply_of st)), after_send ("ATVAR=" ++ float_repr NaN) st).
Proof.
  intros float_repr st. split; [reflexivity|].
  unfold set_variable. cbn [float_ne float_lt float_gt andb orb].
  apply bind_send_eq.
Qed.

(** C4: [get_variable] returns [float(reply[1:])] for a trimmed reply that
    starts with ["V"] and [0.0] for every other reply; ["V3.30"] gives a
    float equal to [3.3] and ["ERROR"] gives [0.0]. *)
Theorem get_variable_decodes :
  (forall st f, starts_with_V (reply_of st) = true ->
     py_float (drop1 (reply_of st)) = Some f -> fst (get_variable st) = inr f) /\
  (forall st, starts_with_V (reply_of st) = false -> fst (get_variable st) = inr (Fin 0)) /\
  (exists x, fst (get_variable (mkSerial [] ["V3.30"])) = inr x /\
             float_eq x (Fin (33 # 10)) = true) /\
  fst (get_variable (mkSerial [] ["ERROR"])) = inr (Fin 0).
Proof.
  split; [|split; [|split]].
  - intros st f HV Hf. rewrite get_variable_eq, HV, Hf. reflexivity.
  - intros st HV. rewrite get_variable_eq, HV. reflexivity.
  - eexists. split; reflexivity.
  - reflexivity.
Qed.

Lemma get_variable_decodes_witness :
  starts_with_V (reply_of (mkSerial [] ["V2.5"])) = true /\
  py_float (drop1 (reply_of (mkSerial [] ["V2.5"]))) = Some (Fin (25 # 10)) /\
  fst (get_variable (mkSerial [] ["V2.5"])) = inr (Fin (25 # 10)).
Proof.
  split; [reflexivity|]. split; [reflexivity|].
  apply (proj1 get_variable_decodes); reflexivity.
Defined.

(** C9 (counterexample): the reply ["Vnan"] starts with ["V"] and its
    remainder is not a decimal number, yet [get_variable] returns NaN; with
    ["Vinf"] it returns infinity. *)
Lemma get_variable_nan_counterexample :
  starts_with_V "Vnan" = true /\
  fst (get_variable (mkSerial [] ["Vnan"])) = inr NaN /\
  fst (get_variable (mkSerial [] ["Vinf"])) = inr PInf.
Proof. repeat split. Qed.

(** C9 (amended): for a trimmed reply starting with ["V"], [get_variable]
    raises [ValueError] exactly when Python's [float()] rejects the
    remainder (["V"], ["Vabc"]); remainders [float()] accepts, such as
    ["nan"] and ["inf"], are returned as floats. *)
Theorem get_variable_parse_error :
  (forall st, starts_with_V (reply_of st) = true ->
     py_float (drop1 (reply_of st)) = None ->
     exists msg, fst (get_variable st) = inl (ValueError msg)) /\
  (forall st f, starts_with_V (reply_of st) = true ->
     py_float (drop1 (reply_of st)) = Some f -> fst (get_variable st) = inr f) /\
  py_float "" = None /\ py_float "abc" = None /\
  py_float "nan" = Some NaN /\ py_float "inf" = Some PInf.
Proof.
  split; [|split; [|repeat split]].
  - intros st HV Hf. rewrite get_variable_eq, HV, Hf. eexists. reflexivity.
  - intros st f HV Hf. rewrite get_variable_eq, HV, Hf. reflexivity.
Qed.

Lemma get_variable_parse_error_witness :
  exists msg, fst (get_variable (mkSerial [] ["Vabc"])) = inl (ValueError msg).
Proof. apply (proj1 get_variable_parse_error); reflexivity. Defined.

(** C5 (counterexample): [set_ac(-1, True)] and [set_3v(-1, False)] raise
    nothing: they write ["ATAC-1=1"] and ["AT3V-1=0"] to the transport. *)
Lemma set_ac_negative_index_counterexample :
  set_ac (-1) true (mkSerial [] ["OK"]) = (inr true, mkSerial ["ATAC-1=1" ++ newline] []) /\
  set_3v (-1) false (mkSerial [] ["OK"]) = (inr true, mkSerial ["AT3V-1=0" ++ newline] []).
Proof. vm_compute. split; reflexivity. Qed.

(** C5 (amended): [set_ac] and [set_3v] do not check the sign or range of
    the rail index; for every integer [x] of at most 4300 digits, negative
    ones included, they send ["ATAC" ++ str(x) ++ "=" ++ int(state)]
    (resp. ["AT3V..."]) in one transport cycle and return whether the reply
    is ["OK"]; only past CPython's digit limit does formatting [x] raise
    [ValueError], before any I/O. *)
Theorem single_rail_setters_unchecked :
  (forall x b st, (Z.abs x < 10 ^ int_max_str_digits)%Z ->
     set_ac x b st = (inr (is_OK (reply_of st)),
                      after_send ("ATAC" ++ py_str_int x ++ "=" ++ py_str_bool b) st)) /\
  (forall x b st, (Z.abs x < 10 ^ int_max_str_digits)%Z ->
     set_3v x b st = (inr (is_OK (reply_of st)),
                      after_send ("AT3V" ++ py_str_int x ++ "=" ++ py_str_bool b) st)) /\
  (forall x b st, (10 ^ int_max_str_digits <= Z.abs x)%Z ->
     set_ac x b st = (inl (ValueError int_max_str_msg), st) /\
     set_3v x b st = (inl (ValueError int_max_str_msg), st)) /\
  py_str_int (-7) = "-7".
Proof.
  split; [|split; [|split; [|reflexivity]]]; intros x b st Hx.
  - rewrite set_ac_eq, (py_str_int_checked_small x Hx). reflexivity.
  - rewrite set_3v_eq, (py_str_int_checked_small x Hx). reflexivity.
  - rewrite set_ac_eq, set_3v_eq, (py_str_int_checked_large x Hx). split; reflexivity.
Qed.

Lemma single_rail_setters_unchecked_witness :
  set_ac (-1) true (mkSerial [] ["OK"]) =
    (inr (is_OK (reply_of (mkSerial [] ["OK"]))),
     after_send ("ATAC" ++ py_str_int (-1) ++ "=" ++ py_str_bool true) (mkSerial [] ["OK"])).
Proof.
  apply (proj1 single_rail_setters_unchecked).
  apply Z.ltb_lt. vm_compute. reflexivity.
Defined.

(** C6 (counterexample): [set_all_5v(True)] writes the command ["AT5V=1"]. *)
Lemma set_all_5v_counterexample :
  set_all_5v true (mkSerial [] ["OK"]) = (inr true, mkSerial ["AT5V=1" ++ newline] []).
Proof. reflexivity. Qed.

(** C6 (amended): [set_all_5v(state)] is a bulk setter for the 5V rails: it
    sends ["AT5V=" ++ int(state)] in one transport cycle and returns whether
    the trimmed reply is exactly ["OK"]. *)
Theorem set_all_5v_bulk_setter :
  forall b st,
    set_all_5v b st = (inr (is_OK (reply_of st)),
                       after_send ("AT5V=" ++ py_str_bool b) st).
Proof. intros b st. unfold set_all_5v. apply bind_send_eq. Qed.

Lemma polarity_token_bijection_witness :
  exists msg, fst (get_5v_polarity (mkSerial [] ["ON"])) = inl (ValueError msg).
Proof.
  apply (proj2 (proj2 (proj2 polarity_token_bijection)));
    vm_compute; discriminate.
Defined.

(* ------------------------------------------------------------------ *)
(** ** Further properties of the driver *)

Lemma list_ascii_of_string_app (a b : string) :
  list_ascii_of_string (a ++ b) = (list_ascii_of_string a ++ list_ascii_of_string b)%list.
Proof. induction a as [|c a IH]; cbn; [reflexivity | now rewrite IH]. Qed.

Lemma string_of_list_ascii_app (a b : list ascii) :
  string_of_list_ascii (a ++ b) = string_of_list_ascii a ++ string_of_list_ascii b.
Proof. induction a as [|c a IH]; cbn; [reflexivity | now rewrite IH]. Qed.

Lemma rev_string_app (a b : string) :
  rev_string (a ++ b) = rev_string b ++ rev_string a.
Proof.
  unfold rev_string. rewrite list_ascii_of_string_app, rev_app_distr.
  apply string_of_list_ascii_app.
Qed.

Lemma rev_string_involutive (s : string) : rev_string (rev_string s) = s.
Proof.
  unfold rev_string.
  rewrite list_ascii_of_string_of_list_ascii, rev_involutive.
  apply string_of_list_ascii_of_string.
Qed.

Lemma forallb_rev_string (f : ascii -> bool) (s : string) :
  forallb f (list_ascii_of_string (rev_string s)) = forallb f (list_ascii_of_string s).
Proof.
  unfold rev_string. rewrite list_ascii_of_string_of_list_ascii.
  induction (list_ascii_of_string s) as [|c l IH]; cbn; [reflexivity|].
  rewrite forallb_app, IH. cbn. rewrite andb_true_r. apply andb_comm.
Qed.

Lemma lstrip_app (a b : string) :
  lstrip (a ++ b) = match lstrip a with EmptyString => lstrip b | u => u ++ b end.
Proof.
  induction a as [|c a IH]; cbn; [reflexivity|].
  destruct (is_space c); [exact IH | reflexivity].
Qed.

Lemma lstrip_spaces (ws : string) :
  forallb is_space (list_ascii_of_string ws) = true -> lstrip ws = EmptyString.
Proof.
  induction ws as [|c ws IH]; cbn; [reflexivity|].
  intros H. apply andb_prop in H as [-> H]. exact (IH H).
Qed.

Lemma lstrip_no_space (s : string) :
  forallb (fun c => negb (is_space c)) (list_ascii_of_string s) = true -> lstrip s = s.
Proof.
  destruct s as [|c s]; cbn; [reflexivity|].
  intros H. apply andb_prop in H as [H _]. destruct (is_space c); [discriminate | reflexivity].
Qed.

Lemma strip_surrounding (ws1 s ws2 : string) :
  forallb is_space (list_ascii_of_string ws1) = true ->
  forallb is_space (list_ascii_of_string ws2) = true ->
  strip (ws1 ++ s ++ ws2) = strip s.
Proof.
  intros H1 H2. unfold strip.
  rewrite (lstrip_app ws1), (lstrip_spaces ws1 H1), (lstrip_app s ws2).
  destruct (lstrip s) as [|c u] eqn:Hs.
  - rewrite (lstrip_spaces ws2 H2). reflexivity.
  - rewrite rev_string_app, lstrip_app.
    rewrite (lstrip_spaces (rev_string ws2)) by (rewrite forallb_rev_string; exact H2).
    reflexivity.
Qed.

Lemma strip_no_space (s : string) :
  forallb (fun c => negb (is_space c)) (list_ascii_of_string s) = true -> strip s = s.
Proof.
  intros H. unfold strip. rewrite (lstrip_no_space s H).
  rewrite lstrip_no_space by (rewrite forallb_rev_string; exact H).
  apply rev_string_involutive.
Qed.

Lemma bits_of_response_state (response : string) (st : serial) :
  snd (bits_of_response response st) = st.
Proof.
  unfold bits_of_response, bind, lift_opt.
  destruct (py_int16 response); [|reflexivity].
  cbn. destruct (map_opt _ _); reflexivity.
Qed.

(** Every operation other than [set_variable] makes exactly one request:
    it writes its command line and consumes one reply line, also when the
    decoding of the reply raises afterwards.  [set_ac] and [set_3v] do so
    whenever [str(x)] succeeds, and otherwise leave the transport untouched. *)
Theorem operations_send_one_command :
  forall st b x p,
    snd (ping st) = after_send "AT" st /\
    snd (set_echo b st) = after_send ("ATE=" ++ py_str_bool b) st /\
    snd (get_echo st) = after_send "ATE?" st /\
    snd (reset st) = after_send "ATR" st /\
    snd (get_firmware_version st) = after_send "ATVER?" st /\
    snd (set_all_ac b st) = after_send ("ATAC=" ++ py_str_bool b) st /\
    snd (get_all_ac st) = after_send "ATAC?" st /\
    snd (set_ac x b st) =
      match py_str_int_checked x with
      | Some sx => after_send ("ATAC" ++ sx ++ "=" ++ py_str_bool b) st
      | None => st
      end /\
    snd (set_all_3v b st) = after_send ("AT3V=" ++ py_str_bool b) st /\
    snd (get_all_3v st) = after_send "AT3V?" st /\
    snd (set_3v x b st) =
      match py_str_int_checked x with
      | Some sx => after_send ("AT3V" ++ sx ++ "=" ++ py_str_bool b) st
      | None => st
      end /\
    snd (set_all_5v b st) = after_send ("AT5V=" ++ py_str_bool b) st /\
    snd (get_all_5v st) = after_send "AT5V?" st /\
    snd (set_5v_polarity p st) = after_send ("ATVPOL=" ++ value p) st /\
    snd (get_5v_polarity st) = after_send "ATVPOL?" st /\
    snd (get_variable st) = after_send "ATVAR?" st.
Proof.
  intros st b x p.
  destruct (get_all_eq st) as (Hac & H3 & H5).
  rewrite Hac, H3, H5, !bits_of_response_state, set_ac_eq, set_3v_eq.
  unfold ping, set_echo, get_echo, reset, get_firmware_version, set_all_ac,
    set_all_3v, set_all_5v, set_5v_polarity, get_5v_polarity.
  rewrite get_variable_eq, send_command_eq, !bind_send_eq.
  repeat split; try reflexivity;
    try (destruct (py_str_int_checked x); reflexivity).
  - destruct (Polarity_of_value _); reflexivity.
  - destruct (starts_with_V _); [destruct (py_float _)|]; reflexivity.
Qed.

(** With no reply line (a read timeout gives [b""]), the OK-expecting
    operations and [get_echo] answer [false] (set_ac, set_3v and
    set_variable unless their argument is refused first),
    [get_firmware_version] answers [""], [get_variable] answers [0.0], and
    the bulk getters and [get_5v_polarity] raise [ValueError]. *)
Theorem timeout_reply_behaviour :
  forall w b x p,
    let st := mkSerial w [] in
    fst (ping st) = inr false /\ fst (set_echo b st) = inr false /\
    fst (reset st) = inr false /\ fst (set_all_ac b st) = inr false /\
    fst (set_ac x b st) =
      (if (Z.abs x <? 10 ^ int_max_str_digits)%Z then inr false
       else inl (ValueError int_max_str_msg)) /\
    fst (set_all_3v b st) = inr false /\
    fst (set_3v x b st) =
      (if (Z.abs x <? 10 ^ int_max_str_digits)%Z then inr false
       else inl (ValueError int_max_str_msg)) /\
    fst (set_all_5v b st) = inr false /\
    fst (set_5v_polarity p st) = inr false /\
    (forall float_repr n,
       (exists msg, fst (set_variable float_repr n st) = inl (ValueError msg)) \/
       fst (set_variable float_repr n st) = inr false) /\
    fst (get_echo st) = inr false /\
    fst (get_firmware_version st) = inr "" /\
    fst (get_variable st) = inr (Fin 0) /\
    (exists msg, fst (get_all_ac st) = inl (ValueError msg)) /\
    (exists msg, fst (get_all_3v st) = inl (ValueError msg)) /\
    (exists msg, fst (get_all_5v st) = inl (ValueError msg)) /\
    (exists msg, fst (get_5v_polarity st) = inl (ValueError msg)).
Proof.
  intros w b x p st. subst st.
  rewrite set_ac_eq, set_3v_eq. unfold py_str_int_checked.
  repeat split; try (eexists; reflexivity);
    try (destruct (_ <? _)%Z; reflexivity); try reflexivity.
  intros float_repr n. unfold set_variable.
  destruct (float_ne n (Fin 0) && _); [left; eexists | right]; reflexivity.
Qed.

(** [get_5v_polarity] returns [p] exactly when the trimmed reply is the
    token [value p]. *)
Theorem get_5v_polarity_exact :
  forall st p, fst (get_5v_polarity st) = inr p <-> reply_of st = value p.
Proof.
  intros st p. unfold get_5v_polarity. rewrite bind_send_eq.
  unfold Polarity_of_value.
  destruct (String.eqb_spec (reply_of st) "VPOS") as [E|E];
    [|destruct (String.eqb_spec (reply_of st) "VNEG") as [E'|E'];
      [|destruct (String.eqb_spec (reply_of st) "OFF") as [E''|E'']]];
    cbn; split; intros H.
  all: try (injection H as <-); try discriminate H; try assumption.
  all: destruct p; cbn in *; congruence.
Qed.

Lemma bind_send_same_reply {A} (cmd : string) (k : string -> M A) (st1 st2 : serial) :
  written st1 = written st2 -> tl (pending st1) = tl (pending st2) ->
  reply_of st1 = reply_of st2 ->
  bind (_send_command cmd) k st1 = bind (_send_command cmd) k st2.
Proof.
  intros Hw Ht Hr. rewrite !bind_send_eq, Hr. unfold after_send. rewrite Hw, Ht.
  reflexivity.
Qed.

(** Whitespace around a reply line (["\r"], spaces, ...) never changes the
    outcome of an operation: every operation gives the same result for the
    line [ws1 ++ r ++ ws2] as for [r]; every operation except [set_ac],
    [set_3v] and [set_variable] (whose argument may be refused before the
    line is read) also leaves the same transport state. *)
Theorem surrounding_whitespace_ignored :
  forall w ws1 r ws2 rest,
    forallb is_space (list_ascii_of_string ws1) = true ->
    forallb is_space (list_ascii_of_string ws2) = true ->
    let st1 := mkSerial w ((ws1 ++ r ++ ws2) :: rest) in
    let st2 := mkSerial w (r :: rest) in
    ping st1 = ping st2 /\
    (forall b, set_echo b st1 = set_echo b st2) /\
    get_echo st1 = get_echo st2 /\ reset st1 = reset st2 /\
    get_firmware_version st1 = get_firmware_version st2 /\
    (forall b, set_all_ac b st1 = set_all_ac b st2) /\
    get_all_ac st1 = get_all_ac st2 /\
    (forall x b, fst (set_ac x b st1) = fst (set_ac x b st2)) /\
    (forall b, set_all_3v b st1 = set_all_3v b st2) /\
    get_all_3v st1 = get_all_3v st2 /\
    (forall x b, fst (set_3v x b st1) = fst (set_3v x b st2)) /\
    (forall b, set_all_5v b st1 = set_all_5v b st2) /\
    get_all_5v st1 = get_all_5v st2 /\
    (forall p, set_5v_polarity p st1 = set_5v_polarity p st2) /\
    get_5v_polarity st1 = get_5v_polarity st2 /\
    (forall float_repr n,
       fst (set_variable float_repr n st1) = fst (set_variable float_repr n st2)) /\
    get_variable st1 = get_variable st2.
Proof.
  intros w ws1 r ws2 rest H1 H2 st1 st2.
  assert (Hr : reply_of st1 = reply_of st2)
    by (unfold reply_of; cbn [pending hd]; apply strip_surrounding; assumption).
  assert (Hs : forall A (cmd : string) (k : string -> M A),
             bind (_send_command cmd) k st1 = bind (_send_command cmd) k st2)
    by (intros; apply bind_send_same_reply; [reflexivity | reflexivity | exact Hr]).
  unfold ping, set_echo, get_echo, reset, set_all_ac, get_all_ac,
    set_all_3v, get_all_3v, set_all_5v, get_all_5v, set_5v_polarity,
    get_5v_polarity, get_variable.
  repeat split; intros;
    first [ apply Hs
          | rewrite !set_ac_eq; destruct (py_str_int_checked x);
            cbn [fst]; [rewrite Hr|]; reflexivity
          | rewrite !set_3v_eq; destruct (py_str_int_checked x);
            cbn [fst]; [rewrite Hr|]; reflexivity
          | unfold get_firmware_version; rewrite !send_command_eq, Hr; reflexivity
          | unfold set_variable;
            destruct (float_ne n (Fin 0) && _); [reflexivity | rewrite Hs; reflexivity] ].
Qed.

Lemma surrounding_whitespace_ignored_witness :
  ping (mkSerial [] ((" " ++ "OK" ++ newline) :: [])) =
  ping (mkSerial [] ("OK" :: [])).
Proof.
  apply (proj1 (surrounding_whitespace_ignored [] " " "OK" newline []
           ltac:(reflexivity) ltac:(reflexivity))).
Defined.

Lemma bits_of_response_negative (response : string) (v : Z) :
  py_int16 response = Some v -> (v < 0)%Z ->
  exists msg, forall st, bits_of_response response st = (inl (ValueError msg), st).
Proof.
  intros Hv Hneg. unfold bits_of_response, bind, lift_opt. rewrite Hv.
  destruct v as [|p|p]; try lia. eexists. intros st. reflexivity.
Qed.

(** A reply that [int(reply, 16)] reads as a negative number (["-A"],
    ["-0x1"]) makes every bulk getter raise [ValueError]: [bin(v)[2:]] then
    starts with the character ['b'], which [int()] rejects. *)
Theorem bulk_getters_reject_negative :
  forall st v, py_int16 (reply_of st) = Some v -> (v < 0)%Z ->
    forall g, In g [get_all_ac; get_all_3v; get_all_5v] ->
    exists msg, fst (g st) = inl (ValueError msg).
Proof.
  intros st v Hv Hneg g Hg.
  destruct (get_all_eq st) as (Hac & H3 & H5).
  destruct (bits_of_response_negative (reply_of st) v Hv Hneg) as (msg & Hm).
  exists msg.
  destruct Hg as [Hg | [Hg | [Hg | []]]]; subst g;
    first [rewrite Hac | rewrite H3 | rewrite H5]; rewrite Hm; reflexivity.
Qed.

Lemma bulk_getters_reject_negative_witness :
  exists msg, fst (get_all_ac (mkSerial [] ["-A"])) = inl (ValueError msg).
Proof.
  apply (bulk_getters_reject_negative (mkSerial [] ["-A"]) (-10)%Z).
  - reflexivity.
  - lia.
  - left. reflexivity.
Defined.

Lemma hex_val_range (c : ascii) : hex_val c <> None -> (48 <= nat_of_ascii c)%nat.
Proof.
  unfold hex_val, is_digit.
  destruct (Nat.leb_spec 48 (nat_of_ascii c)), (Nat.leb_spec (nat_of_ascii c) 57),
    (Nat.leb_spec 97 (nat_of_ascii c)), (Nat.leb_spec (nat_of_ascii c) 102),
    (Nat.leb_spec 65 (nat_of_ascii c)), (Nat.leb_spec (nat_of_ascii c) 70);
    cbn; intros Hh; try lia; congruence.
Qed.

Lemma hex_val_nonneg (c : ascii) (k : Z) : hex_val c = Some k -> (0 <= k)%Z.
Proof.
  unfold hex_val, is_digit.
  destruct (Nat.leb_spec 48 (nat_of_ascii c)), (Nat.leb_spec (nat_of_ascii c) 57),
    (Nat.leb_spec 97 (nat_of_ascii c)), (Nat.leb_spec (nat_of_ascii c) 102),
    (Nat.leb_spec 65 (nat_of_ascii c)), (Nat.leb_spec (nat_of_ascii c) 70);
    cbn; intros Hh; try discriminate; injection Hh as <-; lia.
Qed.

Lemma hex_not_space (c : ascii) : hex_val c <> None -> is_space c = false.
Proof.
  intros H. apply hex_val_range in H. unfold is_space.
  destruct (Nat.leb_spec (nat_of_ascii c) 13), (Nat.leb_spec (nat_of_ascii c) 32);
    try lia; rewrite !andb_false_r; reflexivity.
Qed.

(** A hexadecimal digit is none of the characters [int(s, 16)] treats
    specially. *)
Lemma hex_not_char (c d : ascii) : hex_val c <> None -> hex_val d = None -> Ascii.eqb c d = false.
Proof.
  intros Hc Hd. destruct (Ascii.eqb_spec c d) as [->|]; [contradiction | reflexivity].
Qed.

Lemma int_digits_rest_hex (r : list ascii) (acc : Z) :
  (0 <= acc)%Z -> Forall (fun c => hex_val c <> None) r ->
  exists v, int_digits_rest hex_val 16 acc r = Some v /\ (0 <= v)%Z.
Proof.
  revert acc. induction r as [|c r IH]; intros acc Hacc Hall; cbn.
  - exists acc. split; [reflexivity | exact Hacc].
  - inversion Hall as [|? ? Hc Hr]; subst.
    rewrite (hex_not_char c underscore Hc eq_refl).
    destruct (hex_val c) as [k|] eqn:Hk; [|contradiction].
    apply IH; [|exact Hr].
    apply hex_val_nonneg in Hk. lia.
Qed.

Lemma py_int16_hex_digits (l : list ascii) :
  l <> [] -> Forall (fun c => hex_val c <> None) l ->
  exists v, py_int16 (string_of_list_ascii l) = Some v /\ (0 <= v)%Z.
Proof.
  intros Hne Hall.
  assert (Hs : strip (string_of_list_ascii l) = string_of_list_ascii l).
  { apply strip_no_space. rewrite list_ascii_of_string_of_list_ascii.
    apply forallb_forall. intros c Hc. rewrite Forall_forall in Hall.
    rewrite (hex_not_space c (Hall c Hc)). reflexivity. }
  unfold py_int16. rewrite Hs, list_ascii_of_string_of_list_ascii.
  destruct l as [|c r]; [contradiction|].
  inversion Hall as [|? ? Hc Hr]; subst.
  cbn [take_sign]. rewrite (hex_not_char c "-" Hc eq_refl), (hex_not_char c "+" Hc eq_refl).
  assert (Hp : skip_hex_prefix (c :: r) = c :: r).
  { destruct r as [|x r']; [reflexivity|]. cbn [skip_hex_prefix].
    inversion Hr as [|? ? Hx _]; subst.
    rewrite (hex_not_char x "x" Hx eq_refl), (hex_not_char x "X" Hx eq_refl).
    rewrite andb_false_r. reflexivity. }
  rewrite Hp.
  destruct (hex_val c) as [k|] eqn:Hk; [|contradiction].
  destruct (int_digits_rest_hex r k (hex_val_nonneg c k Hk) Hr) as (v & Hv & Hpos).
  rewrite Hv. exists v. split; [reflexivity | exact Hpos].
Qed.

(** Every reply line made of one or more hexadecimal digits, the form the
    device sends, is decoded by each bulk getter without raising: the
    getter returns a list of booleans whose binary reading is the value of
    the line. *)
Theorem bare_hex_replies_decode :
  forall w l rest, l <> [] -> Forall (fun c => hex_val c <> None) l ->
    forall g, In g [get_all_ac; get_all_3v; get_all_5v] ->
    exists bits, fst (g (mkSerial w (string_of_list_ascii l :: rest))) = inr bits /\
      py_int16 (string_of_list_ascii l) = Some (bits_to_Z bits).
Proof.
  intros w l rest Hne Hall g Hg.
  destruct (py_int16_hex_digits l Hne Hall) as (v & Hv & Hpos).
  set (st := mkSerial w (string_of_list_ascii l :: rest)).
  assert (Hrep : py_int16 (reply_of st) = Some v).
  { unfold reply_of. cbn [pending hd st].
    assert (Hs : strip (string_of_list_ascii l) = string_of_list_ascii l).
    { apply strip_no_space. rewrite list_ascii_of_string_of_list_ascii.
      apply forallb_forall. intros c Hc. rewrite Forall_forall in Hall.
      rewrite (hex_not_space c (Hall c Hc)). reflexivity. }
    rewrite Hs. exact Hv. }
  destruct (bits_of_response_nonneg (reply_of st) v Hrep Hpos) as (bits & Hb & Hval & _).
  destruct (get_all_eq st) as (Hac & H3 & H5).
  exists bits. split; [| rewrite Hval; exact Hv].
  destruct Hg as [Hg | [Hg | [Hg | []]]]; subst g;
    first [rewrite Hac | rewrite H3 | rewrite H5]; rewrite Hb; reflexivity.
Qed.

Lemma bare_hex_replies_decode_witness :
  exists bits, fst (get_all_ac (mkSerial [] (string_of_list_ascii ["3"%char; "f"%char] :: []))) = inr bits /\
    py_int16 (string_of_list_ascii ["3"%char; "f"%char]) = Some (bits_to_Z bits).
Proof.
  apply (bare_hex_replies_decode [] ["3"%char; "f"%char] []).
  - discriminate.
  - repeat constructor; discriminate.
  - left. reflexivity.
Defined.

Lemma py_str_int_inj (x y : Z) : py_str_int x = py_str_int y -> x = y.
Proof.
  unfold py_str_int. intros H.
  apply (f_equal NilEmpty.int_of_string) in H. rewrite !NilEmpty.isi in H.
  injection H as H.
  rewrite <- (DecimalZ.of_to x), <- (DecimalZ.of_to y), H. reflexivity.
Qed.

Lemma py_str_int_nonempty (x : Z) : py_str_int x <> "".
Proof.
  intros H.
  assert (Hx : x = 0%Z).
  { pose proof (NilEmpty.isi (Z.to_int x)) as Hi.
    unfold py_str_int in H. rewrite H in Hi. cbn in Hi. injection Hi as Hi.
    rewrite <- (DecimalZ.of_to x), <- Hi. reflexivity. }
  subst x. discriminate H.
Qed.

Lemma string_length_app (a b : string) :
  String.length (a ++ b) = (String.length a + String.length b)%nat.
Proof. induction a as [|c a IH]; cbn; [reflexivity | now rewrite IH]. Qed.

Lemma append_cancel_l (pre a b : string) : pre ++ a = pre ++ b -> a = b.
Proof. induction pre as [|c pre IH]; cbn; [auto | intros H; injection H; auto]. Qed.

Lemma list_ascii_of_py_str_bool (b : bool) :
  list_ascii_of_string (py_str_bool b) = [if b then "1"%char else "0"%char].
Proof. destruct b; reflexivity. Qed.

Lemma app_two_inj {A} (l1 l2 : list A) (a1 a2 b1 b2 : A) :
  (l1 ++ [a1; b1] = l2 ++ [a2; b2] -> l1 = l2 /\ a1 = a2 /\ b1 = b2)%list.
Proof.
  intros H.
  replace (l1 ++ [a1; b1])%list with ((l1 ++ [a1]) ++ [b1])%list in H
    by (rewrite <- app_assoc; reflexivity).
  replace (l2 ++ [a2; b2])%list with ((l2 ++ [a2]) ++ [b2])%list in H
    by (rewrite <- app_assoc; reflexivity).
  apply app_inj_tail in H as [H ->]. apply app_inj_tail in H as [-> ->]. auto.
Qed.

Lemma rail_command_inj (pre : string) (x y : Z) (b c : bool) :
  pre ++ py_str_int x ++ "=" ++ py_str_bool b = pre ++ py_str_int y ++ "=" ++ py_str_bool c ->
  x = y /\ b = c.
Proof.
  intros H. apply append_cancel_l, (f_equal list_ascii_of_string) in H.
  rewrite !list_ascii_of_string_app, !list_ascii_of_py_str_bool in H.
  cbn [list_ascii_of_string app] in H.
  apply app_two_inj in H as (Hl & _ & Hb).
  split.
  - apply py_str_int_inj.
    rewrite <- (string_of_list_ascii_of_string (py_str_int x)), Hl.
    apply string_of_list_ascii_of_string.
  - destruct b, c; cbn in Hb; congruence.
Qed.

(** The command of a single-rail setter determines its arguments: two calls
    of [set_ac] (resp. [set_3v]) send the same line only with the same rail
    index and state; and [set_ac] never sends the bulk command
    ["ATAC=" ++ int(state)] of [set_all_ac] (nor [set_3v] that of
    [set_all_3v]): [str(x)] is never empty, and when [str(x)] is refused
    nothing is sent at all. *)
Theorem single_rail_commands_injective :
  (forall x y b c st,
     after_send ("ATAC" ++ py_str_int x ++ "=" ++ py_str_bool b) st =
     after_send ("ATAC" ++ py_str_int y ++ "=" ++ py_str_bool c) st -> x = y /\ b = c) /\
  (forall x y b c st,
     after_send ("AT3V" ++ py_str_int x ++ "=" ++ py_str_bool b) st =
     after_send ("AT3V" ++ py_str_int y ++ "=" ++ py_str_bool c) st -> x = y /\ b = c) /\
  (forall x b c st, snd (set_ac x b st) <> snd (set_all_ac c st)) /\
  (forall x b c st, snd (set_3v x b st) <> snd (set_all_3v c st)).
Proof.
  assert (Hcmd : forall cmd1 cmd2 st, after_send cmd1 st = after_send cmd2 st -> cmd1 = cmd2).
  { intros cmd1 cmd2 st H. unfold after_send in H. injection H as H.
    apply app_inv_head in H. injection H as H.
    apply (f_equal list_ascii_of_string) in H.
    rewrite !list_ascii_of_string_app in H. apply app_inv_tail in H.
    rewrite <- (string_of_list_ascii_of_string cmd1), H.
    apply string_of_list_ascii_of_string. }
  assert (Hbulk : forall pre x b c,
    pre ++ py_str_int x ++ "=" ++ py_str_bool b <> pre ++ "=" ++ py_str_bool c).
  { intros pre x b c H. apply append_cancel_l, (f_equal String.length) in H.
    rewrite !string_length_app in H.
    destruct (py_str_int x) as [|d s] eqn:E; [exact (py_str_int_nonempty x E)|].
    destruct b, c; cbn in H; lia. }
  assert (Hgrow : forall cmd st, st <> after_send cmd st).
  { intros cmd st H. apply (f_equal (fun s => List.length (written s))) in H.
    unfold after_send in H. cbn [written] in H. rewrite length_app in H.
    cbn in H. lia. }
  split; [|split; [|split]].
  - intros x y b c st H. exact (rail_command_inj "ATAC" x y b c (Hcmd _ _ _ H)).
  - intros x y b c st H. exact (rail_command_inj "AT3V" x y b c (Hcmd _ _ _ H)).
  - intros x b c st H. rewrite set_ac_eq in H. unfold set_all_ac in H.
    rewrite bind_send_eq in H. unfold py_str_int_checked in H.
    destruct (_ <? _)%Z; cbn [snd] in H.
    + apply Hcmd in H. exact (Hbulk "ATAC" x b c H).
    + exact (Hgrow _ _ H).
  - intros x b c st H. rewrite set_3v_eq in H. unfold set_all_3v in H.
    rewrite bind_send_eq in H. unfold py_str_int_checked in H.
    destruct (_ <? _)%Z; cbn [snd] in H.
    + apply Hcmd in H. exact (Hbulk "AT3V" x b c H).
    + exact (Hgrow _ _ H).
Qed.

Lemma single_rail_commands_injective_witness :
  (2%Z = 2%Z /\ true = true) /\ (5%Z = 5%Z /\ false = false).
Proof.
  split.
  - apply (proj1 single_rail_commands_injective 2%Z 2%Z true true (mkSerial [] [])).
    reflexivity.
  - apply (proj1 (proj2 single_rail_commands_injective) 5%Z 5%Z false false (mkSerial [] [])).
    reflexivity.
Defined.

Lemma set_variable_domain_witness :
  set_variable (fun _ => "3.5") (Fin (35 # 10)) (mkSerial [] ["OK"]) =
    (inr (is_OK (reply_of (mkSerial [] ["OK"]))),
     after_send ("ATVAR=" ++ "3.5") (mkSerial [] ["OK"])) /\
  set_variable (fun _ => "1.99") (Fin (199 # 100)) (mkSerial [] ["OK"]) =
    (inl (ValueError "n must be 0.0 or between 2.0 and 5.0"), mkSerial [] ["OK"]).
Proof.
  split.
  - apply (proj1 (set_variable_domain (fun _ => "3.5") (Fin (35 # 10)) (mkSerial [] ["OK"]))).
    reflexivity.
  - apply (proj2 (set_variable_domain (fun _ => "1.99") (Fin (199 # 100)) (mkSerial [] ["OK"]))).
    + reflexivity.
    + discriminate.
Defined.
